(** * EZVIZ smart plug platform: a shallow embedding of [ezviz/switch.py]

    The module is glue between a host automation platform and the vendor
    client library.  The Python values that flow through it are JSON-shaped
    (the device records returned by the vendor API), so the embedding has a
    small universe of Python values, the handful of Python operators the
    module applies to them ([in], subscripting, iteration, [==],
    truthiness) with the exceptions they raise, and a state-and-exception
    monad for the calls to the client library and to the host. *)

From Stdlib Require Import ZArith String List Bool.
From stdpp Require Import base list.
Import ListNotations.
#[local] Set Warnings "-register-all".
Open Scope string_scope.
Open Scope Z_scope.
Open Scope list_scope.

(** ** Python values *)

(** JSON-shaped Python values.  A [dict] is kept as an association list in
    insertion order, because the module iterates over dictionaries
    ([for device in devs]) and Python iterates in insertion order.
    Floating-point numbers are left out of the universe. *)
Inductive value : Type :=
| VNone
| VBool (b : bool)
| VInt (n : Z)
| VStr (s : string)
| VList (l : list value)
| VDict (d : list (string * value)).

Definition pydict : Type := list (string * value).

(** The exceptions the module can raise or let through.  [PyException msg]
    is the bare [Exception(msg)] of [get_plug]; [ClientError] stands for
    whatever the client library raises (transport errors and the like). *)
Inductive exn : Type :=
| KeyError (key : string)
| TypeError
| AttributeError
| PyException (msg : string)
| ClientError (what : string).

Inductive result (A : Type) : Type :=
| Ok (a : A)
| Raise (e : exn).
Arguments Ok {A} a.
Arguments Raise {A} e.

#[export] Instance result_ret : MRet result := fun _ a => Ok a.
#[export] Instance result_bind : MBind result := fun _ _ f m =>
  match m with
  | Ok a => f a
  | Raise e => Raise e
  end.

(** ** Python operators *)

(** [d[key]] on a dictionary with unique keys: the first binding. *)
Fixpoint dict_lookup (key : string) (d : pydict) : option value :=
  match d with
  | [] => None
  | (k, v) :: rest => if String.eqb k key then Some v else dict_lookup key rest
  end.

Definition dict_keys (d : pydict) : list string := map fst d.

(** [dict.get(key)]: [None] when the key is missing. *)
Definition dict_get (d : pydict) (key : string) : value :=
  match dict_lookup key d with
  | Some v => v
  | None => VNone
  end.

(** [bool(v)]. *)
Definition truthy (v : value) : bool :=
  match v with
  | VNone => false
  | VBool b => b
  | VInt n => negb (n =? 0)
  | VStr s => negb (String.eqb s "")
  | VList l => match l with [] => false | _ => true end
  | VDict d => match d with [] => false | _ => true end
  end.

(** [a == b].  [bool] is a subclass of [int], so [True == 1]. *)
Fixpoint py_eq (a b : value) {struct a} : bool :=
  match a, b with
  | VNone, VNone => true
  | VBool x, VBool y => Bool.eqb x y
  | VBool x, VInt n => Z.b2z x =? n
  | VInt n, VBool x => n =? Z.b2z x
  | VInt m, VInt n => m =? n
  | VStr s, VStr t => String.eqb s t
  | VList l, VList l' =>
      (fix go (l l' : list value) : bool :=
         match l, l' with
         | [], [] => true
         | x :: xs, y :: ys => py_eq x y && go xs ys
         | _, _ => false
         end) l l'
  | VDict d, VDict d' =>
      (length d =? length d')%nat &&
      (fix go (d : pydict) : bool :=
         match d with
         | [] => true
         | (k, v) :: rest =>
             match dict_lookup k d' with
             | Some v' => py_eq v v'
             | None => false
             end && go rest
         end) d
  | _, _ => false
  end.

(** [needle in hay] on two strings: substring test. *)
Fixpoint str_contains (hay needle : string) : bool :=
  if String.prefix needle hay then true
  else match hay with
       | EmptyString => false
       | String _ hay' => str_contains hay' needle
       end.

(** [key in container], for a string [key]. *)
Definition py_in (key : string) (container : value) : result bool :=
  match container with
  | VDict d => Ok (match dict_lookup key d with Some _ => true | None => false end)
  | VList l => Ok (existsb (fun x => py_eq (VStr key) x) l)
  | VStr s => Ok (str_contains s key)
  | VNone | VBool _ | VInt _ => Raise TypeError
  end.

(** [obj[key]], for a string [key]. *)
Definition py_getitem (obj : value) (key : string) : result value :=
  match obj with
  | VDict d =>
      match dict_lookup key d with
      | Some v => Ok v
      | None => Raise (KeyError key)
      end
  | _ => Raise TypeError
  end.

Fixpoint str_chars (s : string) : list value :=
  match s with
  | EmptyString => []
  | String c s' => VStr (String c EmptyString) :: str_chars s'
  end.

(** The sequence a [for] loop walks over. *)
Definition py_iter (v : value) : result (list value) :=
  match v with
  | VList l => Ok l
  | VDict d => Ok (map VStr (dict_keys d))
  | VStr s => Ok (str_chars s)
  | VNone | VBool _ | VInt _ => Raise TypeError
  end.

(** ** The device data parser *)

(** [[data["enable"] for data in switch if data["type"] == 14]] *)
Fixpoint switch_states_of (switch : list value) : result (list value) :=
  match switch with
  | [] => Ok []
  | data :: rest =>
      ty ← py_getitem data "type";
      if py_eq ty (VInt 14)
      then en ← py_getitem data "enable";
           states ← switch_states_of rest;
           mret (en :: states)
      else switch_states_of rest
  end.

Definition parsed : Type := value * value * value * value.

Definition parse_plug_data (plug : value) : result parsed :=
  let name := VNone in
  let serial := VNone in
  let state := VNone in
  let online_status := VNone in
  has_resource ← py_in "resourceInfos" plug;
  '(name, serial) ←
    (if has_resource : bool
     then resourceInfos ← py_getitem plug "resourceInfos";
          name ← py_getitem resourceInfos "resourceName";
          serial ← py_getitem resourceInfos "deviceSerial";
          mret (name, serial)
     else mret (name, serial));
  has_switch ← py_in "SWITCH" plug;
  state ←
    (if has_switch : bool
     then switch ← py_getitem plug "SWTITCH";
          items ← py_iter switch;
          switch_states ← switch_states_of items;
          mret (match switch_states with
                | s :: _ => s
                | [] => VNone
                end)
     else mret state);
  has_status ← py_in "STATUS" plug;
  online_status ←
    (if has_status : bool
     then status ← py_getitem plug "STATUS";
          has_optionals ← py_in "optionals" status;
          if has_optionals : bool
          then optionals ← py_getitem status "optionals";
               has_online ← py_in "OnlineStatus" optionals;
               if has_online : bool
               then py_getitem optionals "OnlineStatus"
               else mret online_status
          else mret online_status
     else mret online_status);
  mret (name, serial, state, online_status).


(** ** State and exceptions *)

(** Computations that read and write a state [S] and may raise. *)
Definition SE (S A : Type) : Type := S -> result A * S.

#[export] Instance SE_ret {S} : MRet (SE S) := fun _ a s => (Ok a, s).
#[export] Instance SE_bind {S} : MBind (SE S) := fun _ _ f m s =>
  match m s with
  | (Ok a, s') => f a s'
  | (Raise e, s') => (Raise e, s')
  end.

(** A pure computation that may raise, run inside [SE]. *)
Definition lift {S A} (r : result A) : SE S A := fun s => (r, s).

(** ** The plug entity *)

(** The fields set by [EZPlug.__init__].  [_client] is a reference to the
    client object, which lives in the store of the world and is shared by
    every plug built from it. *)
Record EZPlug : Type := EZPlug_init {
  _name : value;
  _serial : value;
  _state : value;
  _client : nat
}.

Definition serial (self : EZPlug) : value := _serial self.
Definition client (self : EZPlug) : nat := _client self.
Definition name (self : EZPlug) : value := _name self.

(** [return self._state == 1] *)
Definition is_on (self : EZPlug) : bool := py_eq (_state self) (VInt 1).

(** ** The client library and the host *)

Inductive log_level : Type := INFO | WARNING | ERROR.

(** What the module does to the outside, in order. *)
Inductive event : Type :=
| NewClient (username password : value)
| CallLogin (c : nat)
| CallGetDeviceInfos (c : nat)
| CallSwitchStatus (c : nat) (device : value) (status_type enable : Z)
| AddEntities (entities : list EZPlug)
| Logged (level : log_level) (msg : string).

(** The behaviour of [pyezvizapi.client.EzvizClient], of which the module
    knows nothing: any state, any answers, any exceptions. *)
Class EzvizClientApi (C : Type) : Type := {
  api_new : value -> value -> C;
  api_login : C -> result value * C;
  api_get_device_infos : C -> result pydict * C;
  api_switch_status : value -> Z -> Z -> C -> result value * C
}.

Section Platform.
Context {C : Type} `{Api : EzvizClientApi C}.

(** The client objects that exist, and what has been done so far. *)
Record world : Type := World {
  clients : list C;
  trace : list event
}.

#[local] Abbreviation M := (SE world).

Definition emit (e : event) : M unit := fun w =>
  (Ok tt, World (clients w) (trace w ++ [e])).

(** A method call on the client object behind reference [c].  A reference
    behind which there is no client object (a plug built with something
    else in its [client] argument) has none of the methods. *)
Definition on_client {A} (c : nat) (op : C -> result A * C) : M A := fun w =>
  match clients w !! c with
  | Some st =>
      let '(r, st') := op st in (r, World (<[c := st']> (clients w)) (trace w))
  | None => (Raise AttributeError, w)
  end.

(** [client.EzvizClient(username, password)] *)
Definition EzvizClient (username password : value) : M nat := fun w =>
  (Ok (length (clients w)),
   World (clients w ++ [api_new username password])
         (trace w ++ [NewClient username password])).

Definition login (c : nat) : M value :=
  emit (CallLogin c);; on_client c api_login.

Definition get_device_infos (c : nat) : M pydict :=
  emit (CallGetDeviceInfos c);; on_client c api_get_device_infos.

Definition switch_status (c : nat) (device : value) (status_type enable : Z)
  : M value :=
  emit (CallSwitchStatus c device status_type enable);;
  on_client c (api_switch_status device status_type enable).

(** [add_entities(...)]: the host takes the entities handed to it. *)
Definition add_entities (entities : list EZPlug) : M unit :=
  emit (AddEntities entities).

Definition _LOGGER (level : log_level) (msg : string) : M unit :=
  emit (Logged level msg).

(** ** The device directory *)

(** [for device in devs: plugs.append(devs[device])] *)
Fixpoint get_plugs_loop (devs : pydict) (keys : list string)
  (plugs : list value) : result (list value) :=
  match keys with
  | [] => Ok plugs
  | device :: rest =>
      plug ← py_getitem (VDict devs) device;
      get_plugs_loop devs rest (plugs ++ [plug])
  end.

Definition get_plugs (c : nat) : M (list value) :=
  devs ← get_device_infos c;
  lift (get_plugs_loop devs (dict_keys devs) []).

(** The [for] loop of [get_plug], with the [raise] that follows it. *)
Fixpoint get_plug_loop (all_plugs : list value) (target_serial : value)
  : result value :=
  match all_plugs with
  | [] => Raise (PyException "No devices found")
  | dev :: rest =>
      infos ← py_getitem dev "deviceInfos";
      dev_serial ← py_getitem infos "deviceSerial";
      if py_eq dev_serial target_serial
      then Ok dev
      else get_plug_loop rest target_serial
  end.

Definition get_plug (c : nat) (target_serial : value) : M value :=
  all_plugs ← get_plugs c;
  lift (get_plug_loop all_plugs target_serial).

Definition get_plug_data (c : nat) (target_serial : value) : M parsed :=
  plug ← get_plug c target_serial;
  lift (parse_plug_data plug).

Definition set_plug_state (c : nat) (target_serial : value) (state : Z)
  : M value :=
  switch_status c target_serial 14 state.

(** ** Bootstrap *)

Definition CONF_USERNAME : string := "username".
Definition CONF_PASSWORD : string := "password".

(** The [for plug in plugs] loop of [setup_platform], appending to the three
    lists. *)
Fixpoint setup_loop (plugs : list value) (names serials states : list value)
  : result (list value * list value * list value) :=
  match plugs with
  | [] => Ok (names, serials, states)
  | plug :: rest =>
      '(name, serial, state, _) ← parse_plug_data plug;
      setup_loop rest (names ++ [name]) (serials ++ [serial])
                 (states ++ [state])
  end.

(** [zip(names, serials, states)] *)
Fixpoint zip3 (names serials states : list value)
  : list (value * value * value) :=
  match names, serials, states with
  | n :: ns, s :: ss, st :: sts => (n, s, st) :: zip3 ns ss sts
  | _, _, _ => []
  end.

(** [hass] and [discovery_info] are not used by the function; the
    [add_entities] callback is the host's, above. *)
Definition setup_platform (config : pydict) : M unit :=
  let username := dict_get config CONF_USERNAME in
  let password := dict_get config CONF_PASSWORD in
  if negb (truthy username) || negb (truthy password)
  then _LOGGER WARNING "Missing username/email and password in configuration"
  else
    ezclient ← EzvizClient username password;
    token ← login ezclient;
    if negb (truthy token)
    then _LOGGER ERROR "Unsuccessful connection to EZVIZ API"
    else
      plugs ← get_plugs ezclient;
      '(names, serials, states) ← lift (setup_loop plugs [] [] []);
      _LOGGER INFO "Retrieved all plugs in EZVIZ";;
      add_entities
        (map (fun '(name, serial, state) =>
                EZPlug_init name serial state ezclient)
             (zip3 names serials states)).

(** ** The methods of the plug *)

(** A method runs on its own object and on the world. *)
#[local] Abbreviation Method := (SE (EZPlug * world)).

Definition get_self : Method EZPlug := fun s => (Ok (fst s), s).

Definition set_self (f : EZPlug -> EZPlug) : Method unit := fun s =>
  (Ok tt, (f (fst s), snd s)).

Definition in_world {A} (m : M A) : Method A := fun s =>
  let '(r, w') := m (snd s) in (r, (fst s, w')).

Definition turn_on : Method unit :=
  self ← get_self;
  if negb (is_on self)
  then in_world (set_plug_state (_client self) (_serial self) 1);; mret tt
  else mret tt.

Definition turn_off : Method unit :=
  self ← get_self;
  if is_on self
  then in_world (set_plug_state (_client self) (_serial self) 0);; mret tt
  else mret tt.

Definition update : Method unit :=
  self ← get_self;
  '(name, _, state, _) ← in_world (get_plug_data (client self) (serial self));
  set_self (fun self => EZPlug_init name (_serial self) (_state self) (_client self));;
  set_self (fun self => EZPlug_init (_name self) (_serial self) state (_client self)).

End Platform.

Arguments world C : clear implicits.

(** ** A scripted client

    A client library that answers [login] with a fixed token and
    [get_device_infos] with a fixed dictionary of devices; it has no state
    of its own.  It is what the examples run against. *)
Definition scripted_client (token : value) (devs : pydict)
  : EzvizClientApi unit := {|
  api_new := fun _ _ => tt;
  api_login := fun st => (Ok token, st);
  api_get_device_infos := fun st => (Ok devs, st);
  api_switch_status := fun _ _ _ st => (Ok VNone, st)
|}.

(** A device record as the vendor shapes it, with the groups the module
    reads except the switch and status groups. *)
Definition sample_record (name serial : string) : value :=
  VDict [("deviceInfos", VDict [("deviceSerial", VStr serial)]);
         ("resourceInfos",
          VDict [("resourceName", VStr name); ("deviceSerial", VStr serial)])].

Definition sample_devices : pydict :=
  [("ABC123", sample_record "Plug A" "ABC123");
   ("DEF456", sample_record "Plug B" "DEF456")].

Definition sample_config : pydict :=
  [("username", VStr "user@example.org"); ("password", VStr "secret")].

(** A plug record with its switch group, and a device list that has it
    after a record without one. *)
Definition switch_record : value :=
  VDict [("SWITCH", VList [VDict [("type", VInt 14); ("enable", VBool true)]])].

Definition sample_devices_switch : pydict :=
  [("ABC123", sample_record "Plug A" "ABC123"); ("DEF456", switch_record)].

(** Clients whose [login], or whose [get_device_infos], raises. *)
Definition login_failing_client (e : exn) : EzvizClientApi unit := {|
  api_new := fun _ _ => tt;
  api_login := fun st => (Raise e, st);
  api_get_device_infos := fun st => (Ok [], st);
  api_switch_status := fun _ _ _ st => (Ok VNone, st)
|}.

Definition enumeration_failing_client (e : exn) : EzvizClientApi unit := {|
  api_new := fun _ _ => tt;
  api_login := fun st => (Ok (VStr "token"), st);
  api_get_device_infos := fun st => (Raise e, st);
  api_switch_status := fun _ _ _ st => (Ok VNone, st)
|}.

(** The world before anything has happened. *)
Definition no_world : world unit := World [] [].

(** The entities handed to the host so far. *)
Fixpoint registered (tr : list event) : list EZPlug :=
  match tr with
  | [] => []
  | AddEntities entities :: rest => entities ++ registered rest
  | _ :: rest => registered rest
  end.

Definition is_client_call (e : event) : bool :=
  match e with
  | CallLogin _ | CallGetDeviceInfos _ | CallSwitchStatus _ _ _ _ => true
  | _ => false
  end.

(** The calls made on client objects so far. *)
Definition client_calls (tr : list event) : list event :=
  filter (fun e => is_client_call e = true) tr.

(** The number a Python value compares equal to, when it is a number. *)
Definition as_int (v : value) : option Z :=
  match v with
  | VInt n => Some n
  | VBool b => Some (Z.b2z b)
  | _ => None
  end.

(** [dev["deviceInfos"]["deviceSerial"]], the field [get_plug] compares. *)
Definition device_serial (dev : value) : result value :=
  infos ← py_getitem dev "deviceInfos";
  py_getitem infos "deviceSerial".

(** [dev["resourceInfos"]["deviceSerial"]], the field [parse_plug_data]
    reports as the serial. *)
Definition resource_serial (dev : value) : result value :=
  infos ← py_getitem dev "resourceInfos";
  py_getitem infos "deviceSerial".

(** Does the serial that [field] reads from [dev] equal [target]?  A record
    without the field does not match. *)
Definition serial_is (field : value -> result value) (target dev : value)
  : bool :=
  match field dev with
  | Ok s => py_eq s target
  | Raise _ => false
  end.

Definition has_serial (field : value -> result value) (dev : value) : Prop :=
  exists s, field dev = Ok s.

(** A configuration key that is not there, or there with the empty string. *)
Definition missing_or_empty (key : string) (config : pydict) : Prop :=
  dict_lookup key config = None \/ dict_lookup key config = Some (VStr "").

Definition not_found : exn := PyException "No devices found".


(** [EZPlug(name, serial, state, ezclient)] on the fields of one parse. *)
Definition plug_of (c : nat) (p : parsed) : EZPlug :=
  let '(name, serial, state, _) := p in EZPlug_init name serial state c.

(** The shapes of what one run of [setup_platform] with user name [u] and
    password [p] can add to the trace, the client object being [c]. *)
Inductive bootstrap_events (u p : value) (c : nat) : list event -> Prop :=
| BootNoCredentials :
    bootstrap_events u p c
      [Logged WARNING "Missing username/email and password in configuration"]
| BootLoginRaised :
    bootstrap_events u p c [NewClient u p; CallLogin c]
| BootLoginRefused :
    bootstrap_events u p c
      [NewClient u p; CallLogin c;
       Logged ERROR "Unsuccessful connection to EZVIZ API"]
| BootNoPlugs :
    bootstrap_events u p c [NewClient u p; CallLogin c; CallGetDeviceInfos c]
| BootRegistered (plugs : list EZPlug) :
    bootstrap_events u p c
      [NewClient u p; CallLogin c; CallGetDeviceInfos c;
       Logged INFO "Retrieved all plugs in EZVIZ"; AddEntities plugs].

Definition is_switch_call (e : event) : bool :=
  match e with
  | CallSwitchStatus _ _ _ _ => true
  | _ => false
  end.

(** * Properties *)

(** ** The parser *)

(** A record with a complete resource-info group and no other group: the
    name and the serial are read, the rest stays [None]. *)
Example parse_resource_only :
  parse_plug_data
    (VDict [("resourceInfos",
             VDict [("resourceName", VStr "Plug A");
                    ("deviceSerial", VStr "ABC123")])])
  = Ok (VStr "Plug A", VStr "ABC123", VNone, VNone).
Proof. reflexivity. Qed.

(** The status path is followed only as far as it exists. *)
Example parse_status_levels :
  parse_plug_data (VDict [("STATUS", VDict [])])
  = Ok (VNone, VNone, VNone, VNone)
  /\ parse_plug_data (VDict [("STATUS", VDict [("optionals", VDict [])])])
    = Ok (VNone, VNone, VNone, VNone)
  /\ parse_plug_data
      (VDict [("STATUS",
               VDict [("optionals", VDict [("OnlineStatus", VInt 1)])])])
    = Ok (VNone, VNone, VNone, VInt 1).
Proof. repeat split; reflexivity. Qed.

(** C10: when the resource-info group is present, both [resourceName] and
    [deviceSerial] are indexed in it without a test: a record whose group
    lacks one of the two keys makes [parse_plug_data] raise, with the
    exception of the failed subscript, and no fields are returned. *)
Theorem parse_indexes_both_resource_keys (d : pydict) (infos : value) :
  dict_lookup "resourceInfos" d = Some infos ->
  (forall v, py_getitem infos "resourceName" <> Ok v)
  \/ (forall v, py_getitem infos "deviceSerial" <> Ok v) ->
  exists e,
    parse_plug_data (VDict d) = Raise e
    /\ (py_getitem infos "resourceName" = Raise e
        \/ py_getitem infos "deviceSerial" = Raise e).
Proof.
  intros Hd Hlack. unfold parse_plug_data. cbn. rewrite Hd. cbn.
  destruct (py_getitem infos "resourceName") as [n|e1] eqn:Hn; cbn.
  - destruct (py_getitem infos "deviceSerial") as [s|e2] eqn:Hs; cbn.
    + destruct Hlack as [H|H]; [destruct (H n) | destruct (H s)]; reflexivity.
    + exists e2. split; [reflexivity | right; reflexivity].
  - exists e1. split; [reflexivity | left; reflexivity].
Qed.

Lemma parse_indexes_both_resource_keys_witness :
  exists e,
    parse_plug_data
      (VDict [("resourceInfos", VDict [("resourceName", VStr "Plug A")])])
    = Raise e
    /\ (py_getitem (VDict [("resourceName", VStr "Plug A")]) "resourceName"
        = Raise e
        \/ py_getitem (VDict [("resourceName", VStr "Plug A")]) "deviceSerial"
          = Raise e).
Proof.
  apply (parse_indexes_both_resource_keys
           [("resourceInfos", VDict [("resourceName", VStr "Plug A")])]
           (VDict [("resourceName", VStr "Plug A")])).
  - reflexivity.
  - right. intros v. cbn. discriminate.
Defined.

(** With a dictionary for the group, the exception is the [KeyError] of the
    first of the two keys that is missing. *)
Lemma parse_missing_resource_key (d infos : pydict) :
  dict_lookup "resourceInfos" d = Some (VDict infos) ->
  dict_lookup "resourceName" infos = None
  \/ dict_lookup "deviceSerial" infos = None ->
  parse_plug_data (VDict d)
  = Raise (KeyError (match dict_lookup "resourceName" infos with
                     | None => "resourceName"
                     | Some _ => "deviceSerial"
                     end)).
Proof.
  intros Hd Hlack. unfold parse_plug_data. cbn. rewrite Hd. cbn.
  destruct (dict_lookup "resourceName" infos) eqn:Hn; cbn.
  - destruct Hlack as [H|H]; [discriminate|]. rewrite H. reflexivity.
  - reflexivity.
Qed.

(** C1: the switch-capability group is tested under the key ["SWITCH"] and
    read under the key ["SWTITCH"].  So a record that has the group, and
    not also a group under the second spelling, makes [parse_plug_data]
    raise: no state is returned, neither [None] nor an entry's flag.  When
    the resource-info block did not raise before, the exception is
    [KeyError "SWTITCH"]. *)
Theorem parse_switch_group_raises (d : pydict) (group : value) :
  dict_lookup "SWITCH" d = Some group ->
  dict_lookup "SWTITCH" d = None ->
  exists e,
    parse_plug_data (VDict d) = Raise e
    /\ (dict_lookup "resourceInfos" d = None -> e = KeyError "SWTITCH").
Proof.
  intros Hs Ht. unfold parse_plug_data. cbn.
  destruct (dict_lookup "resourceInfos" d) as [infos|] eqn:Hr; cbn.
  - destruct (py_getitem infos "resourceName") as [n|e1]; cbn.
    + destruct (py_getitem infos "deviceSerial") as [s|e2]; cbn.
      * rewrite Hs. cbn. rewrite Ht. cbn.
        exists (KeyError "SWTITCH"). split; [reflexivity | discriminate].
      * exists e2. split; [reflexivity | discriminate].
    + exists e1. split; [reflexivity | discriminate].
  - rewrite Hs. cbn. rewrite Ht. cbn.
    exists (KeyError "SWTITCH"). split; reflexivity.
Qed.

Lemma parse_switch_group_raises_witness :
  exists e,
    parse_plug_data
      (VDict [("SWITCH",
               VList [VDict [("type", VInt 3); ("enable", VInt 0)]])])
    = Raise e
    /\ (dict_lookup "resourceInfos"
          [("SWITCH", VList [VDict [("type", VInt 3); ("enable", VInt 0)]])]
        = None -> e = KeyError "SWTITCH").
Proof.
  apply (parse_switch_group_raises
           [("SWITCH", VList [VDict [("type", VInt 3); ("enable", VInt 0)]])]
           (VList [VDict [("type", VInt 3); ("enable", VInt 0)]]));
    reflexivity.
Defined.

(** Had the group been read under the key it was tested under, the flag of
    the type-14 entry would have been the state: the comprehension itself
    selects it. *)
Example switch_states_of_selects_type_14 :
  switch_states_of
    [VDict [("type", VInt 3); ("enable", VInt 0)];
     VDict [("type", VInt 14); ("enable", VInt 1)]]
  = Ok [VInt 1].
Proof. reflexivity. Qed.

(** Only a record that carries the group under both spellings gets a state,
    and it is read from the group under the second one. *)
Example parse_reads_second_spelling :
  parse_plug_data
    (VDict [("SWITCH", VList [VDict [("type", VInt 14); ("enable", VInt 0)]]);
            ("SWTITCH", VList [VDict [("type", VInt 14); ("enable", VInt 1)]])])
  = Ok (VNone, VNone, VInt 1, VNone).
Proof. reflexivity. Qed.

(** C2: a record without the resource-info group, but with the switch
    group, does not come back with name and serial [None]:
    [parse_plug_data] raises [KeyError "SWTITCH"], the key of a group the
    record does not have. *)
Theorem parse_raises_on_missing_group :
  dict_lookup "resourceInfos"
    [("SWITCH", VList [VDict [("type", VInt 14); ("enable", VInt 1)]])]
  = None
  /\ parse_plug_data
      (VDict [("SWITCH",
               VList [VDict [("type", VInt 14); ("enable", VInt 1)]])])
    = Raise (KeyError "SWTITCH").
Proof. split; reflexivity. Qed.

(** Without the switch group, a missing resource-info group leaves name and
    serial [None], whatever the status path gives, unless the status block
    itself raises. *)
Lemma parse_no_resource_no_switch (d : pydict) :
  dict_lookup "resourceInfos" d = None ->
  dict_lookup "SWITCH" d = None ->
  (exists online, parse_plug_data (VDict d) = Ok (VNone, VNone, VNone, online))
  \/ (exists e, parse_plug_data (VDict d) = Raise e).
Proof.
  intros Hr Hs. unfold parse_plug_data. cbn. rewrite Hr, Hs. cbn.
  destruct (dict_lookup "STATUS" d) as [status|]; cbn; [|left; eauto].
  destruct (py_in "optionals" status) as [[|]|e]; cbn; [|left; eauto|right; eauto].
  destruct (py_getitem status "optionals") as [optionals|e]; cbn; [|right; eauto].
  destruct (py_in "OnlineStatus" optionals) as [[|]|e]; cbn;
    [|left; eauto|right; eauto].
  destruct (py_getitem optionals "OnlineStatus") as [o|e]; cbn;
    [left; eauto|right; eauto].
Qed.

(** ** The plug *)

Lemma py_eq_int (v : value) (n : Z) :
  py_eq v (VInt n) = match as_int v with
                     | Some m => m =? n
                     | None => false
                     end.
Proof. destruct v; reflexivity. Qed.

(** C6: [is_on] is [True] exactly when the cached state is numerically equal
    to 1 (the integer 1, or [True], which Python counts as 1); for the state
    0, for [None] and for every value that is not a number it is [False].
    It is not the truth value of the state: 2 is truthy and yet not on. *)
Theorem is_on_iff_state_equals_1 (self : EZPlug) :
  (is_on self = true <-> as_int (_state self) = Some 1)
  /\ is_on self = match _state self with
                 | VInt n => n =? 1
                 | VBool b => b
                 | VNone | VStr _ | VList _ | VDict _ => false
                 end
  /\ is_on (EZPlug_init (_name self) (_serial self) (VInt 1) (_client self))
    = true
  /\ is_on (EZPlug_init (_name self) (_serial self) (VInt 0) (_client self))
    = false
  /\ is_on (EZPlug_init (_name self) (_serial self) VNone (_client self))
    = false
  /\ (truthy (VInt 2) = true
     /\ is_on (EZPlug_init (_name self) (_serial self) (VInt 2) (_client self))
       = false).
Proof.
  unfold is_on. rewrite py_eq_int.
  repeat split; try reflexivity.
  - destruct (as_int (_state self)) as [m|]; [|discriminate].
    intros H. apply Z.eqb_eq in H. subst. reflexivity.
  - intros ->. reflexivity.
  - destruct (_state self) as [|[|]| | | |]; reflexivity.
Qed.

(** ** Running the bootstrap *)

Lemma registered_app (tr1 tr2 : list event) :
  registered (tr1 ++ tr2) = registered tr1 ++ registered tr2.
Proof.
  induction tr1 as [|e tr1 IH]; [reflexivity|].
  destruct e; cbn; rewrite IH; try reflexivity. apply app_assoc.
Qed.

Lemma client_calls_app (tr1 tr2 : list event) :
  client_calls (tr1 ++ tr2) = client_calls tr1 ++ client_calls tr2.
Proof. apply filter_app. Qed.

Section Bootstrap.
Context {C : Type} `{Api : EzvizClientApi C}.

(** A method call on the client object that was created last. *)
Lemma on_client_last {A} (op : C -> result A * C) (cl : list C) (st : C)
  (tr : list event) :
  on_client (length cl) op (World (cl ++ [st]) tr)
  = (fst (op st), World (cl ++ [snd (op st)]) tr).
Proof.
  unfold on_client. cbn.
  rewrite list_lookup_middle by reflexivity.
  destruct (op st) as [r st']. cbn. do 2 f_equal.
  rewrite insert_app_r_alt by reflexivity.
  rewrite Nat.sub_diag. reflexivity.
Qed.

Lemma login_last (cl : list C) (st : C) (tr : list event) :
  login (length cl) (World (cl ++ [st]) tr)
  = (fst (api_login st),
     World (cl ++ [snd (api_login st)]) (tr ++ [CallLogin (length cl)])).
Proof.
  unfold login, emit, mbind, SE_bind. cbn.
  rewrite on_client_last. destruct (api_login st) as [[t|e] st']; reflexivity.
Qed.

Lemma get_device_infos_last (cl : list C) (st : C) (tr : list event) :
  get_device_infos (length cl) (World (cl ++ [st]) tr)
  = (fst (api_get_device_infos st),
     World (cl ++ [snd (api_get_device_infos st)])
           (tr ++ [CallGetDeviceInfos (length cl)])).
Proof.
  unfold get_device_infos, emit, mbind, SE_bind. cbn.
  rewrite on_client_last.
  destruct (api_get_device_infos st) as [[t|e] st']; reflexivity.
Qed.

End Bootstrap.

(** C9: when the user name or the password is missing from the
    configuration, or is the empty string, [setup_platform] logs a warning
    and returns: no client object is created, no call is made on a client
    (no login), and nothing is handed to the host. *)
Theorem setup_platform_without_credentials {C : Type} `{Api : EzvizClientApi C}
  (config : pydict) (w : world C) :
  missing_or_empty CONF_USERNAME config
  \/ missing_or_empty CONF_PASSWORD config ->
  setup_platform config w
  = (Ok tt,
     World (clients w)
           (trace w ++
            [Logged WARNING
               "Missing username/email and password in configuration"]))
  /\ clients (snd (setup_platform config w)) = clients w
  /\ client_calls (trace (snd (setup_platform config w)))
    = client_calls (trace w)
  /\ registered (trace (snd (setup_platform config w)))
    = registered (trace w).
Proof.
  intros H.
  assert (Hrun : setup_platform config w
                 = (Ok tt,
                    World (clients w)
                      (trace w ++
                       [Logged WARNING
                          "Missing username/email and password in configuration"]))).
  { unfold setup_platform, dict_get.
    destruct H as [[H|H]|[H|H]]; rewrite H; cbn;
      rewrite ?orb_true_r; reflexivity. }
  rewrite Hrun. cbn. rewrite client_calls_app, registered_app. cbn.
  rewrite !app_nil_r. repeat split.
Qed.

Lemma setup_platform_without_credentials_witness :
  setup_platform (Api := scripted_client (VStr "token") [])
    [("username", VStr "user@example.org"); ("password", VStr "")] no_world
  = (Ok tt,
     World []
       [Logged WARNING "Missing username/email and password in configuration"]).
Proof.
  apply (setup_platform_without_credentials
           (Api := scripted_client (VStr "token") [])
           [("username", VStr "user@example.org"); ("password", VStr "")]
           no_world).
  right. right. reflexivity.
Defined.

(** C4: when [login] answers with a falsy token, [setup_platform] logs an
    error and returns.  What it has done by then is create the client
    object and call [login] on it: [get_device_infos] is not called and
    nothing is handed to the host. *)
Theorem setup_platform_login_falsy {C : Type} `{Api : EzvizClientApi C}
  (config : pydict) (w : world C) (token : value) (st' : C) :
  truthy (dict_get config CONF_USERNAME) = true ->
  truthy (dict_get config CONF_PASSWORD) = true ->
  api_login (api_new (dict_get config CONF_USERNAME)
                     (dict_get config CONF_PASSWORD)) = (Ok token, st') ->
  truthy token = false ->
  setup_platform config w
  = (Ok tt,
     World (clients w ++ [st'])
           (trace w ++
            [NewClient (dict_get config CONF_USERNAME)
                       (dict_get config CONF_PASSWORD);
             CallLogin (length (clients w));
             Logged ERROR "Unsuccessful connection to EZVIZ API"]))
  /\ client_calls (trace (snd (setup_platform config w)))
    = client_calls (trace w) ++ [CallLogin (length (clients w))]
  /\ registered (trace (snd (setup_platform config w)))
    = registered (trace w).
Proof.
  intros Hu Hp Hlogin Htoken.
  assert (Hrun : setup_platform config w
                 = (Ok tt,
                    World (clients w ++ [st'])
                      (trace w ++
                       [NewClient (dict_get config CONF_USERNAME)
                                  (dict_get config CONF_PASSWORD);
                        CallLogin (length (clients w));
                        Logged ERROR "Unsuccessful connection to EZVIZ API"]))).
  { unfold setup_platform. rewrite Hu, Hp. cbn.
    unfold mbind, SE_bind, EzvizClient. rewrite login_last, Hlogin. cbn.
    rewrite Htoken. cbn. unfold _LOGGER, emit. cbn.
    rewrite <- !app_assoc. reflexivity. }
  rewrite Hrun. cbn. rewrite client_calls_app, registered_app. cbn.
  rewrite !app_nil_r. repeat split.
Qed.

Lemma setup_platform_login_falsy_witness :
  setup_platform (Api := scripted_client VNone []) sample_config no_world
  = (Ok tt,
     World [tt]
       [NewClient (VStr "user@example.org") (VStr "secret");
        CallLogin 0%nat;
        Logged ERROR "Unsuccessful connection to EZVIZ API"]).
Proof.
  apply (setup_platform_login_falsy (Api := scripted_client VNone [])
           sample_config no_world VNone tt); reflexivity.
Defined.

(** ** The device directory *)

Lemma dict_lookup_app_fresh (key : string) (d1 d2 : pydict) :
  ~ In key (dict_keys d1) ->
  dict_lookup key (d1 ++ d2) = dict_lookup key d2.
Proof.
  induction d1 as [|[k v] d1 IH]; cbn; [reflexivity|].
  intros Hnotin. destruct (String.eqb_spec k key) as [->|_].
  - destruct Hnotin. left. reflexivity.
  - apply IH. intros Hin. apply Hnotin. right. exact Hin.
Qed.

Lemma get_plugs_loop_all (seen todo : pydict) (plugs : list value) :
  List.NoDup (dict_keys (seen ++ todo)) ->
  get_plugs_loop (seen ++ todo) (dict_keys todo) plugs
  = Ok (plugs ++ map snd todo).
Proof.
  revert seen plugs.
  induction todo as [|[k v] todo IH]; intros seen plugs Hnodup; cbn.
  - rewrite app_nil_r. reflexivity.
  - rewrite dict_lookup_app_fresh.
    + cbn. rewrite String.eqb_refl. cbn.
      replace (seen ++ (k, v) :: todo) with ((seen ++ [(k, v)]) ++ todo)
        in * by (rewrite <- app_assoc; reflexivity).
      rewrite IH by exact Hnodup. rewrite <- app_assoc. reflexivity.
    + unfold dict_keys in Hnodup. rewrite map_app in Hnodup. cbn in Hnodup.
      apply List.NoDup_remove_2 in Hnodup.
      intros Hin. apply Hnodup. apply in_or_app. left. exact Hin.
Qed.

(** [get_plugs] returns the records of the dictionary the client answers
    with, all of them and in the order of the dictionary. *)
Lemma get_plugs_all {C : Type} `{Api : EzvizClientApi C}
  (cl : list C) (st st' : C) (tr : list event) (devs : pydict) :
  List.NoDup (dict_keys devs) ->
  api_get_device_infos st = (Ok devs, st') ->
  get_plugs (length cl) (World (cl ++ [st]) tr)
  = (Ok (map snd devs),
     World (cl ++ [st']) (tr ++ [CallGetDeviceInfos (length cl)])).
Proof.
  intros Hnodup Hinfos. unfold get_plugs, mbind, SE_bind.
  rewrite get_device_infos_last, Hinfos. cbn. unfold lift.
  pose proof (get_plugs_loop_all [] devs [] Hnodup) as Hloop.
  change ([] ++ devs) with devs in Hloop. rewrite Hloop. reflexivity.
Qed.

(** C5, as stated, fails: two records come back from the client, the second
    with a resource-info group that has no [deviceSerial], and
    [setup_platform] raises out of its parsing loop with nothing handed to
    the host. *)
Lemma setup_platform_two_records_counterexample :
  let devs :=
    [("ABC123",
      VDict [("resourceInfos",
              VDict [("resourceName", VStr "Plug A");
                     ("deviceSerial", VStr "ABC123")])]);
     ("DEF456",
      VDict [("resourceInfos", VDict [("resourceName", VStr "Plug B")])])] in
  let run :=
    setup_platform (Api := scripted_client (VStr "token") devs)
      sample_config no_world in
  fst (get_plugs (Api := scripted_client (VStr "token") devs) 0
         (World [tt] []))
  = Ok (map snd devs)
  /\ fst run = Raise (KeyError "deviceSerial")
  /\ registered (trace (snd run)) = [].
Proof. repeat split; reflexivity. Qed.

(** C5, amended: when [login] answers with a truthy token, the client
    answers [get_device_infos] with two records and [parse_plug_data]
    returns on both, [setup_platform] hands exactly two plugs to the host,
    in the order of the records, each built from the name, serial and state
    parsed from its record and holding the one client object. *)
Theorem setup_platform_two_records {C : Type} `{Api : EzvizClientApi C}
  (config : pydict) (w : world C) (token : value) (st1 st2 : C)
  (k1 k2 : string) (r1 r2 : value) (n1 s1 t1 o1 n2 s2 t2 o2 : value) :
  truthy (dict_get config CONF_USERNAME) = true ->
  truthy (dict_get config CONF_PASSWORD) = true ->
  api_login (api_new (dict_get config CONF_USERNAME)
                     (dict_get config CONF_PASSWORD)) = (Ok token, st1) ->
  truthy token = true ->
  api_get_device_infos st1 = (Ok [(k1, r1); (k2, r2)], st2) ->
  k1 <> k2 ->
  parse_plug_data r1 = Ok (n1, s1, t1, o1) ->
  parse_plug_data r2 = Ok (n2, s2, t2, o2) ->
  setup_platform config w
  = (Ok tt,
     World (clients w ++ [st2])
           (trace w ++
            [NewClient (dict_get config CONF_USERNAME)
                       (dict_get config CONF_PASSWORD);
             CallLogin (length (clients w));
             CallGetDeviceInfos (length (clients w));
             Logged INFO "Retrieved all plugs in EZVIZ";
             AddEntities [EZPlug_init n1 s1 t1 (length (clients w));
                          EZPlug_init n2 s2 t2 (length (clients w))]]))
  /\ registered (trace (snd (setup_platform config w)))
    = registered (trace w)
      ++ [EZPlug_init n1 s1 t1 (length (clients w));
          EZPlug_init n2 s2 t2 (length (clients w))].
Proof.
  intros Hu Hp Hlogin Htoken Hinfos Hk Hr1 Hr2.
  assert (Hnodup : List.NoDup (dict_keys [(k1, r1); (k2, r2)])).
  { cbn. constructor.
    - intros [H|[]]. apply Hk. symmetry. exact H.
    - constructor; [intros []|constructor]. }
  assert (Hrun : setup_platform config w
    = (Ok tt,
       World (clients w ++ [st2])
         (trace w ++
          [NewClient (dict_get config CONF_USERNAME)
                     (dict_get config CONF_PASSWORD);
           CallLogin (length (clients w));
           CallGetDeviceInfos (length (clients w));
           Logged INFO "Retrieved all plugs in EZVIZ";
           AddEntities [EZPlug_init n1 s1 t1 (length (clients w));
                        EZPlug_init n2 s2 t2 (length (clients w))]]))).
  { unfold setup_platform. rewrite Hu, Hp. cbn.
    unfold mbind at 1. unfold SE_bind at 1. unfold EzvizClient.
    unfold mbind at 1. unfold SE_bind at 1. rewrite login_last, Hlogin. cbn.
    rewrite Htoken. cbn.
    unfold mbind at 1. unfold SE_bind at 1.
    rewrite (get_plugs_all _ _ _ _ _ Hnodup Hinfos). cbn.
    unfold mbind at 1. unfold SE_bind at 1. unfold lift.
    rewrite Hr1. cbn. rewrite Hr2. cbn.
    unfold mbind, SE_bind, _LOGGER, add_entities, emit. cbn.
    rewrite <- !app_assoc. reflexivity. }
  rewrite Hrun. split; [reflexivity|].
  cbn. rewrite registered_app. reflexivity.
Qed.

Lemma setup_platform_two_records_witness :
  registered
    (trace
       (snd (setup_platform
               (Api := scripted_client (VStr "token") sample_devices)
               sample_config no_world)))
  = [EZPlug_init (VStr "Plug A") (VStr "ABC123") VNone 0;
     EZPlug_init (VStr "Plug B") (VStr "DEF456") VNone 0].
Proof.
  refine (proj2 (setup_platform_two_records
                   (Api := scripted_client (VStr "token") sample_devices)
                   sample_config no_world (VStr "token") tt tt
                   "ABC123" "DEF456"
                   (sample_record "Plug A" "ABC123")
                   (sample_record "Plug B" "DEF456")
                   (VStr "Plug A") (VStr "ABC123") VNone VNone
                   (VStr "Plug B") (VStr "DEF456") VNone VNone
                   _ _ _ _ _ _ _ _));
    try reflexivity.
  discriminate.
Defined.

Lemma get_plug_loop_cons (dev : value) (rest : list value) (target : value) :
  get_plug_loop (dev :: rest) target
  = (s ← device_serial dev;
     if py_eq s target then Ok dev else get_plug_loop rest target).
Proof.
  unfold device_serial. cbn.
  destruct (py_getitem dev "deviceInfos") as [infos|e]; reflexivity.
Qed.

(** The scan stops at the first record whose serial is the target; the
    records after it are not looked at. *)
Lemma get_plug_loop_first_match (before after : list value)
  (dev target : value) :
  Forall (fun d => exists s, device_serial d = Ok s /\ py_eq s target = false)
         before ->
  serial_is device_serial target dev = true ->
  get_plug_loop (before ++ dev :: after) target = Ok dev.
Proof.
  intros Hbefore Hdev. induction Hbefore as [|d before [s [Hs Hne]] _ IH].
  - rewrite app_nil_l, get_plug_loop_cons. unfold serial_is in Hdev.
    destruct (device_serial dev) as [s|e]; [|discriminate].
    cbn. rewrite Hdev. reflexivity.
  - rewrite <- app_comm_cons, get_plug_loop_cons, Hs. cbn. rewrite Hne.
    exact IH.
Qed.

Lemma get_plug_loop_find (records : list value) (target : value) :
  Forall (has_serial device_serial) records ->
  get_plug_loop records target
  = match List.find (serial_is device_serial target) records with
    | Some dev => Ok dev
    | None => Raise not_found
    end.
Proof.
  intros Hall. induction Hall as [|dev rest [s Hs] _ IH]; [reflexivity|].
  rewrite get_plug_loop_cons. cbn. unfold serial_is at 1. rewrite Hs. cbn.
  destruct (py_eq s target); [reflexivity | exact IH].
Qed.

Lemma find_none_iff {A : Type} (f : A -> bool) (l : list A) :
  List.find f l = None <-> Forall (fun x => f x = false) l.
Proof.
  induction l as [|x l IH]; cbn.
  - split; [constructor | reflexivity].
  - destruct (f x) eqn:Hx.
    + split; [discriminate|]. intros H. inversion H; subst. congruence.
    + rewrite IH. split; [constructor; assumption|].
      intros H. inversion H; subst. assumption.
Qed.

(** C3, as stated, fails.  The field compared is the serial of the
    device-info group, not the one of the resource-info group: a record
    whose resource-info serial is the identifier is not found when its
    device-info serial is another, and a record without a device-info group
    makes the scan raise [KeyError], which is neither the record nor the
    not-found error. *)
Lemma get_plug_resource_serial_counterexample :
  let moved :=
    VDict [("deviceInfos", VDict [("deviceSerial", VStr "XYZ789")]);
           ("resourceInfos",
            VDict [("resourceName", VStr "Plug A");
                   ("deviceSerial", VStr "ABC123")])] in
  let bare :=
    VDict [("resourceInfos",
            VDict [("resourceName", VStr "Plug A");
                   ("deviceSerial", VStr "ABC123")])] in
  serial_is resource_serial (VStr "ABC123") moved = true
  /\ get_plug (Api := scripted_client (VStr "token") [("XYZ789", moved)])
       0 (VStr "ABC123") (World [tt] [])
     = (Raise not_found, World [tt] [CallGetDeviceInfos 0])
  /\ serial_is resource_serial (VStr "ABC123") bare = true
  /\ get_plug (Api := scripted_client (VStr "token") [("ABC123", bare)])
       0 (VStr "ABC123") (World [tt] [])
     = (Raise (KeyError "deviceInfos"), World [tt] [CallGetDeviceInfos 0]).
Proof. repeat split; reflexivity. Qed.

(** C3, amended: [get_plug] scans the records returned by [get_plugs] in
    order, comparing the serial of each record's device-info group with the
    identifier.  When every record has that field, it returns the first
    record whose serial is the identifier, and it raises the not-found
    error if and only if no record has the identifier as its serial. *)
Theorem get_plug_scans_device_serial {C : Type} `{Api : EzvizClientApi C}
  (c : nat) (target : value) (w w' : world C) (records : list value) :
  get_plugs c w = (Ok records, w') ->
  Forall (has_serial device_serial) records ->
  get_plug c target w
  = (match List.find (serial_is device_serial target) records with
     | Some dev => Ok dev
     | None => Raise not_found
     end, w')
  /\ (get_plug c target w = (Raise not_found, w')
     <-> Forall (fun dev => serial_is device_serial target dev = false)
                records).
Proof.
  intros Hplugs Hall.
  assert (Hrun : get_plug c target w = (get_plug_loop records target, w')).
  { unfold get_plug, mbind, SE_bind. rewrite Hplugs. reflexivity. }
  rewrite Hrun, (get_plug_loop_find records target Hall).
  split; [reflexivity|]. rewrite <- find_none_iff.
  destruct (List.find (serial_is device_serial target) records) as [dev|].
  - split; discriminate.
  - split; reflexivity.
Qed.

Lemma get_plug_scans_device_serial_witness :
  get_plug (Api := scripted_client (VStr "token") sample_devices)
    0 (VStr "DEF456") (World [tt] [])
  = (Ok (sample_record "Plug B" "DEF456"), World [tt] [CallGetDeviceInfos 0])
  /\ (get_plug (Api := scripted_client (VStr "token") sample_devices)
        0 (VStr "DEF456") (World [tt] [])
      = (Raise not_found, World [tt] [CallGetDeviceInfos 0])
      <-> Forall (fun dev => serial_is device_serial (VStr "DEF456") dev = false)
                 (map snd sample_devices)).
Proof.
  apply (get_plug_scans_device_serial
           (Api := scripted_client (VStr "token") sample_devices)
           0 (VStr "DEF456") (World [tt] []) (World [tt] [CallGetDeviceInfos 0])
           (map snd sample_devices)).
  - reflexivity.
  - repeat constructor; eexists; reflexivity.
Defined.

(** ** Switching and refreshing *)

(** [set_plug_state] makes one call on the client, whatever it answers. *)
Lemma set_plug_state_trace {C : Type} `{Api : EzvizClientApi C}
  (c : nat) (target : value) (state : Z) (w : world C) :
  trace (snd (set_plug_state c target state w))
  = trace w ++ [CallSwitchStatus c target 14 state].
Proof.
  unfold set_plug_state, switch_status, emit, on_client, mbind, SE_bind. cbn.
  destruct (clients w !! c) as [st|]; [|reflexivity].
  destruct (api_switch_status target 14 state st) as [r st']. reflexivity.
Qed.

(** C7: [turn_on] on a plug whose cached state reads on (state 1) makes no
    call and leaves the world as it is; on a plug whose cached state reads
    off (state 0) it makes exactly one call, [switch_status(serial, 14, 1)].
    [turn_off] is the mirror image with [switch_status(serial, 14, 0)].
    Neither changes the plug object, so the cached state stays what it
    was, also when the client raises. *)
Theorem turn_on_off_calls {C : Type} `{Api : EzvizClientApi C}
  (self : EZPlug) (w : world C) :
  (if is_on self
   then turn_on (self, w) = (Ok tt, (self, w))
   else fst (snd (turn_on (self, w))) = self
        /\ trace (snd (snd (turn_on (self, w))))
          = trace w ++ [CallSwitchStatus (_client self) (_serial self) 14 1])
  /\ (if is_on self
     then fst (snd (turn_off (self, w))) = self
          /\ trace (snd (snd (turn_off (self, w))))
            = trace w ++ [CallSwitchStatus (_client self) (_serial self) 14 0]
     else turn_off (self, w) = (Ok tt, (self, w)))
  /\ is_on (EZPlug_init (_name self) (_serial self) (VInt 1) (_client self))
    = true
  /\ is_on (EZPlug_init (_name self) (_serial self) (VInt 0) (_client self))
    = false.
Proof.
  repeat split.
  - unfold turn_on, mbind, SE_bind, get_self. cbn.
    destruct (is_on self); cbn; [reflexivity|].
    unfold in_world. cbn.
    pose proof (set_plug_state_trace (_client self) (_serial self) 1 w) as Htr.
    destruct (set_plug_state (_client self) (_serial self) 1 w) as [[v|e] w'];
      cbn in *; split; [reflexivity | exact Htr | reflexivity | exact Htr].
  - unfold turn_off, mbind, SE_bind, get_self. cbn.
    destruct (is_on self); cbn; [|reflexivity].
    unfold in_world. cbn.
    pose proof (set_plug_state_trace (_client self) (_serial self) 0 w) as Htr.
    destruct (set_plug_state (_client self) (_serial self) 0 w) as [[v|e] w'];
      cbn in *; split; [reflexivity | exact Htr | reflexivity | exact Htr].
Qed.

(** A plug that is off, switched on against the scripted client: one call,
    and the cached state still reads off. *)
Example turn_on_when_off :
  turn_on (Api := scripted_client (VStr "token") sample_devices)
    (EZPlug_init (VStr "Plug A") (VStr "ABC123") (VInt 0) 0, World [tt] [])
  = (Ok tt,
     (EZPlug_init (VStr "Plug A") (VStr "ABC123") (VInt 0) 0,
      World [tt] [CallSwitchStatus 0 (VStr "ABC123") 14 1])).
Proof. reflexivity. Qed.

(** C8: [update] looks the plug up again with [get_plug] under the plug's
    own serial and parses the record found; it then overwrites the cached
    name and the cached state and nothing else.  When the lookup or the
    parse raises, and so when [get_plug] raises its not-found error because
    the device is gone, [update] raises the same exception and the plug is
    left as it was.  In every case the serial and the client reference are
    the ones the plug had. *)
Theorem update_overwrites_name_and_state {C : Type} `{Api : EzvizClientApi C}
  (self : EZPlug) (w : world C) :
  match get_plug (_client self) (_serial self) w with
  | (Ok plug, w') =>
      match parse_plug_data plug with
      | Ok (name, _, state, _) =>
          update (self, w)
          = (Ok tt, (EZPlug_init name (_serial self) state (_client self), w'))
      | Raise e => update (self, w) = (Raise e, (self, w'))
      end
  | (Raise e, w') => update (self, w) = (Raise e, (self, w'))
  end
  /\ _serial (fst (snd (update (self, w)))) = _serial self
  /\ _client (fst (snd (update (self, w)))) = _client self.
Proof.
  unfold update, get_plug_data, in_world, get_self, set_self, client, serial,
    lift, mbind, SE_bind. cbn.
  destruct (get_plug (_client self) (_serial self) w) as [[plug|e] w']; cbn;
    [|repeat split].
  destruct (parse_plug_data plug) as [[[[name ser] state] online]|e]; cbn;
    repeat split.
Qed.

(** The device has left the account: the refresh fails with the not-found
    error and the plug keeps its cached name and state. *)
Example update_device_gone :
  update (Api := scripted_client (VStr "token")
                   [("DEF456", sample_record "Plug B" "DEF456")])
    (EZPlug_init (VStr "Plug A") (VStr "ABC123") (VInt 1) 0, World [tt] [])
  = (Raise not_found,
     (EZPlug_init (VStr "Plug A") (VStr "ABC123") (VInt 1) 0,
      World [tt] [CallGetDeviceInfos 0])).
Proof. reflexivity. Qed.

(** The device is still there under a new name: the refresh takes the new
    name and the parsed state. *)
Example update_device_renamed :
  update (Api := scripted_client (VStr "token")
                   [("ABC123", sample_record "Kettle" "ABC123")])
    (EZPlug_init (VStr "Plug A") (VStr "ABC123") (VInt 1) 0, World [tt] [])
  = (Ok tt,
     (EZPlug_init (VStr "Kettle") (VStr "ABC123") VNone 0,
      World [tt] [CallGetDeviceInfos 0])).
Proof. reflexivity. Qed.

(** * Further properties of the module *)

(** ** What the parser returns *)

Lemma result_bind_Ok {A B : Type} (m : result A) (f : A -> result B) (b : B) :
  m ≫= f = Ok b -> exists a, m = Ok a /\ f a = Ok b.
Proof. destruct m as [a|e]; [eauto | discriminate]. Qed.

(** X1: Name and serial come as a pair: when [parse_plug_data] returns on a
    record, either the record has the resource-info group and the two are
    that group's [resourceName] and [deviceSerial], or it has not and both
    are [None]. *)
Theorem parse_name_serial_together (d : pydict) (n s st o : value) :
  parse_plug_data (VDict d) = Ok (n, s, st, o) ->
  match dict_lookup "resourceInfos" d with
  | Some infos =>
      py_getitem infos "resourceName" = Ok n
      /\ py_getitem infos "deviceSerial" = Ok s
  | None => n = VNone /\ s = VNone
  end.
Proof.
  unfold parse_plug_data. cbn.
  destruct (dict_lookup "resourceInfos" d) as [infos|]; cbn.
  - destruct (py_getitem infos "resourceName") as [n'|e]; cbn; [|discriminate].
    destruct (py_getitem infos "deviceSerial") as [s'|e]; cbn; [|discriminate].
    intros H. apply result_bind_Ok in H as (st' & _ & H).
    apply result_bind_Ok in H as (o' & _ & H).
    injection H as -> -> _ _. split; reflexivity.
  - intros H. apply result_bind_Ok in H as (st' & _ & H).
    apply result_bind_Ok in H as (o' & _ & H).
    injection H as <- <- _ _. split; reflexivity.
Qed.

Lemma parse_name_serial_together_witness :
  py_getitem (VDict [("resourceName", VStr "Plug A");
                     ("deviceSerial", VStr "ABC123")]) "resourceName"
  = Ok (VStr "Plug A")
  /\ py_getitem (VDict [("resourceName", VStr "Plug A");
                        ("deviceSerial", VStr "ABC123")]) "deviceSerial"
    = Ok (VStr "ABC123").
Proof.
  exact (parse_name_serial_together
           [("deviceInfos", VDict [("deviceSerial", VStr "ABC123")]);
            ("resourceInfos",
             VDict [("resourceName", VStr "Plug A");
                    ("deviceSerial", VStr "ABC123")])]
           (VStr "Plug A") (VStr "ABC123") VNone VNone eq_refl).
Defined.



(** X3: A state other than [None] is never returned for a record that does
    not carry the switch group under both spellings of its key. *)
Theorem parse_state_needs_both_keys (d : pydict) (n s st o : value) :
  parse_plug_data (VDict d) = Ok (n, s, st, o) ->
  st <> VNone ->
  is_Some (dict_lookup "SWITCH" d) /\ is_Some (dict_lookup "SWTITCH" d).
Proof.
  unfold parse_plug_data. intros H Hst.
  apply result_bind_Ok in H as (b1 & _ & H).
  apply result_bind_Ok in H as ([n' s'] & _ & H).
  apply result_bind_Ok in H as (b2 & Hb2 & H).
  apply result_bind_Ok in H as (st' & Hstate & H).
  apply result_bind_Ok in H as (b3 & _ & H).
  apply result_bind_Ok in H as (o' & _ & H).
  injection H as _ _ <- _. cbn in Hb2. injection Hb2 as <-.
  destruct (dict_lookup "SWITCH" d) as [group|].
  - split; [eauto|].
    apply result_bind_Ok in Hstate as (switch & Hswitch & _).
    cbn in Hswitch. destruct (dict_lookup "SWTITCH" d); [eauto | discriminate].
  - injection Hstate as <-. destruct Hst. reflexivity.
Qed.

Lemma parse_state_needs_both_keys_witness :
  is_Some (dict_lookup "SWITCH"
             [("SWITCH", VList []);
              ("SWTITCH", VList [VDict [("type", VInt 14); ("enable", VInt 1)]])])
  /\ is_Some (dict_lookup "SWTITCH"
               [("SWITCH", VList []);
                ("SWTITCH",
                 VList [VDict [("type", VInt 14); ("enable", VInt 1)]])]).
Proof.
  apply (parse_state_needs_both_keys
           [("SWITCH", VList []);
            ("SWTITCH", VList [VDict [("type", VInt 14); ("enable", VInt 1)]])]
           VNone VNone (VInt 1) VNone).
  - reflexivity.
  - discriminate.
Defined.

(** X4: The comprehension over the switch group puts first the flag of the
    first entry of type 14: entries of other types before it contribute
    nothing and need no [enable] key.  The entries after it are still
    visited, so the comprehension returns only if they can be read. *)
Theorem switch_states_of_first_match (before after : list value)
  (data enable : value) (states : list value) :
  Forall (fun d => exists ty, py_getitem d "type" = Ok ty
                              /\ py_eq ty (VInt 14) = false) before ->
  (exists ty, py_getitem data "type" = Ok ty /\ py_eq ty (VInt 14) = true) ->
  py_getitem data "enable" = Ok enable ->
  switch_states_of after = Ok states ->
  switch_states_of (before ++ data :: after) = Ok (enable :: states).
Proof.
  intros Hbefore (ty & Hty & H14) Hen Hafter.
  induction Hbefore as [|d before (ty' & Hty' & Hne) _ IH]; cbn.
  - rewrite Hty. cbn. rewrite H14, Hen. cbn. rewrite Hafter. reflexivity.
  - rewrite Hty'. cbn. rewrite Hne. exact IH.
Qed.

Lemma switch_states_of_first_match_witness :
  switch_states_of
    ([VDict [("type", VInt 3)]]
     ++ VDict [("type", VInt 14); ("enable", VInt 1)]
     :: [VDict [("type", VInt 14); ("enable", VInt 0)]])
  = Ok [VInt 1; VInt 0].
Proof.
  apply (switch_states_of_first_match
           [VDict [("type", VInt 3)]]
           [VDict [("type", VInt 14); ("enable", VInt 0)]]
           (VDict [("type", VInt 14); ("enable", VInt 1)]) (VInt 1) [VInt 0]).
  - repeat constructor. exists (VInt 3). split; reflexivity.
  - exists (VInt 14). split; reflexivity.
  - reflexivity.
  - reflexivity.
Defined.

(** X5: One entry that cannot be read makes the whole comprehension raise, also
    when it comes after the entry of type 14: an entry without [type]
    raises [KeyError "type"]. *)
Theorem switch_states_of_unreadable_entry (before after : list value)
  (bad : pydict) :
  Forall (fun d => exists ty, py_getitem d "type" = Ok ty
                              /\ (py_eq ty (VInt 14) = true ->
                                  exists en, py_getitem d "enable" = Ok en))
         before ->
  dict_lookup "type" bad = None ->
  switch_states_of (before ++ VDict bad :: after) = Raise (KeyError "type").
Proof.
  intros Hbefore Hbad.
  induction Hbefore as [|d before (ty & Hty & Hen) _ IH]; cbn.
  - rewrite Hbad. reflexivity.
  - rewrite Hty. cbn. destruct (py_eq ty (VInt 14)); [|exact IH].
    destruct (Hen eq_refl) as [en ->]. cbn. rewrite IH. reflexivity.
Qed.

Lemma switch_states_of_unreadable_entry_witness :
  switch_states_of
    ([VDict [("type", VInt 14); ("enable", VInt 1)]]
     ++ VDict [("enable", VInt 0)] :: [])
  = Raise (KeyError "type").
Proof.
  apply (switch_states_of_unreadable_entry
           [VDict [("type", VInt 14); ("enable", VInt 1)]] []
           [("enable", VInt 0)]).
  - repeat constructor. exists (VInt 14). split; [reflexivity|].
    intros _. exists (VInt 1). reflexivity.
  - reflexivity.
Defined.

(** ** What the directory does *)

Lemma on_client_at {C : Type} `{Api : EzvizClientApi C} {A : Type}
  (c : nat) (op : C -> result A * C) (w : world C) (st : C) :
  clients w !! c = Some st ->
  on_client c op w
  = (fst (op st), World (<[c := snd (op st)]> (clients w)) (trace w)).
Proof.
  intros Hc. unfold on_client. rewrite Hc. destruct (op st); reflexivity.
Qed.

Lemma get_device_infos_at {C : Type} `{Api : EzvizClientApi C}
  (c : nat) (w : world C) (st : C) :
  clients w !! c = Some st ->
  get_device_infos c w
  = (fst (api_get_device_infos st),
     World (<[c := snd (api_get_device_infos st)]> (clients w))
           (trace w ++ [CallGetDeviceInfos c])).
Proof.
  intros Hc. unfold get_device_infos, emit, mbind, SE_bind. cbn.
  rewrite (on_client_at c _ _ st) by exact Hc. cbn.
  destruct (api_get_device_infos st) as [[devs|e] st']; reflexivity.
Qed.

Lemma get_plugs_trace {C : Type} `{Api : EzvizClientApi C}
  (c : nat) (w : world C) :
  trace (snd (get_plugs c w)) = trace w ++ [CallGetDeviceInfos c].
Proof.
  unfold get_plugs, get_device_infos, emit, on_client, lift, mbind, SE_bind.
  cbn. destruct (clients w !! c) as [st|]; [|reflexivity].
  destruct (api_get_device_infos st) as [[devs|e] st']; reflexivity.
Qed.

(** X6: [get_plugs] asks the client once and returns every record of the
    dictionary it answers with, each once and in the order of the
    dictionary, whichever client object it is called on. *)
Theorem get_plugs_returns_all {C : Type} `{Api : EzvizClientApi C}
  (c : nat) (w : world C) (st st' : C) (devs : pydict) :
  clients w !! c = Some st ->
  api_get_device_infos st = (Ok devs, st') ->
  List.NoDup (dict_keys devs) ->
  get_plugs c w
  = (Ok (map snd devs),
     World (<[c := st']> (clients w)) (trace w ++ [CallGetDeviceInfos c])).
Proof.
  intros Hc Hinfos Hnodup. unfold get_plugs, mbind, SE_bind.
  rewrite (get_device_infos_at c w st Hc), Hinfos. cbn. unfold lift.
  pose proof (get_plugs_loop_all [] devs [] Hnodup) as Hloop.
  change ([] ++ devs) with devs in Hloop. rewrite Hloop. reflexivity.
Qed.

Lemma get_plugs_returns_all_witness :
  get_plugs (Api := scripted_client (VStr "token") sample_devices)
    0 (World [tt] [])
  = (Ok [sample_record "Plug A" "ABC123"; sample_record "Plug B" "DEF456"],
     World [tt] [CallGetDeviceInfos 0]).
Proof.
  apply (get_plugs_returns_all
           (Api := scripted_client (VStr "token") sample_devices)
           0 (World [tt] []) tt tt sample_devices).
  - reflexivity.
  - reflexivity.
  - repeat constructor; cbn; intros H; decompose [or] H; discriminate || contradiction.
Defined.

(** X7: An exception of the client's [get_device_infos] comes out unchanged of
    [get_plugs], of [get_plug], of [get_plug_data] and of [update], and
    [update] then leaves the plug as it was. *)
Theorem client_error_propagates {C : Type} `{Api : EzvizClientApi C}
  (self : EZPlug) (w : world C) (st st' : C) (e : exn) :
  clients w !! _client self = Some st ->
  api_get_device_infos st = (Raise e, st') ->
  let w' := World (<[_client self := st']> (clients w))
                  (trace w ++ [CallGetDeviceInfos (_client self)]) in
  get_plugs (_client self) w = (Raise e, w')
  /\ get_plug (_client self) (_serial self) w = (Raise e, w')
  /\ get_plug_data (_client self) (_serial self) w = (Raise e, w')
  /\ update (self, w) = (Raise e, (self, w')).
Proof.
  intros Hc Hinfos w'.
  assert (Hplugs : get_plugs (_client self) w = (Raise e, w')).
  { unfold get_plugs, mbind, SE_bind.
    rewrite (get_device_infos_at _ w st Hc), Hinfos. reflexivity. }
  assert (Hplug : get_plug (_client self) (_serial self) w = (Raise e, w')).
  { unfold get_plug, mbind, SE_bind. rewrite Hplugs. reflexivity. }
  assert (Hdata : get_plug_data (_client self) (_serial self) w
                  = (Raise e, w')).
  { unfold get_plug_data, mbind, SE_bind. rewrite Hplug. reflexivity. }
  repeat split; try assumption.
  unfold update, in_world, get_self, client, serial, mbind, SE_bind. cbn.
  rewrite Hdata. reflexivity.
Qed.

Lemma client_error_propagates_witness :
  update (Api := enumeration_failing_client (ClientError "timeout"))
    (EZPlug_init (VStr "Plug A") (VStr "ABC123") (VInt 1) 0, World [tt] [])
  = (Raise (ClientError "timeout"),
     (EZPlug_init (VStr "Plug A") (VStr "ABC123") (VInt 1) 0,
      World [tt] [CallGetDeviceInfos 0])).
Proof.
  refine (proj2 (proj2 (proj2
    (client_error_propagates
       (Api := enumeration_failing_client (ClientError "timeout"))
       (EZPlug_init (VStr "Plug A") (VStr "ABC123") (VInt 1) 0)
       (World [tt] []) tt tt (ClientError "timeout") _ _)))); reflexivity.
Defined.

Lemma get_plug_loop_Ok (records : list value) (target dev : value) :
  get_plug_loop records target = Ok dev ->
  In dev records /\ serial_is device_serial target dev = true.
Proof.
  induction records as [|d records IH]; [discriminate|].
  rewrite get_plug_loop_cons. intros H.
  apply result_bind_Ok in H as (s & Hs & H).
  destruct (py_eq s target) eqn:Heq.
  - injection H as <-. split; [left; reflexivity|].
    unfold serial_is. rewrite Hs. exact Heq.
  - destruct (IH H) as [Hin Hser]. split; [right; exact Hin | exact Hser].
Qed.

(** X8: What [get_plug] returns is one of the records [get_plugs] returned, and
    one whose device-info serial equals the identifier asked for. *)
Theorem get_plug_returns_a_match {C : Type} `{Api : EzvizClientApi C}
  (c : nat) (target dev : value) (w w' : world C) :
  get_plug c target w = (Ok dev, w') ->
  exists records,
    get_plugs c w = (Ok records, w')
    /\ In dev records
    /\ serial_is device_serial target dev = true.
Proof.
  unfold get_plug, mbind, SE_bind, lift.
  destruct (get_plugs c w) as [[records|e] w1]; [|discriminate].
  intros H. injection H as Hloop <-.
  exists records. split; [reflexivity|]. apply get_plug_loop_Ok. exact Hloop.
Qed.

Lemma get_plug_returns_a_match_witness :
  exists records,
    get_plugs (Api := scripted_client (VStr "token") sample_devices)
      0 (World [tt] [])
    = (Ok records, World [tt] [CallGetDeviceInfos 0])
    /\ In (sample_record "Plug B" "DEF456") records
    /\ serial_is device_serial (VStr "DEF456")
         (sample_record "Plug B" "DEF456") = true.
Proof.
  apply (get_plug_returns_a_match
           (Api := scripted_client (VStr "token") sample_devices)
           0 (VStr "DEF456") (sample_record "Plug B" "DEF456")
           (World [tt] []) (World [tt] [CallGetDeviceInfos 0])).
  reflexivity.
Defined.

Lemma device_serial_never_not_found (dev : value) :
  device_serial dev <> Raise not_found.
Proof.
  unfold device_serial. destruct dev as [| | | | |d]; try discriminate. cbn.
  destruct (dict_lookup "deviceInfos" d) as [infos|]; [|discriminate]. cbn.
  destruct infos as [| | | | |i]; try discriminate. cbn.
  destruct (dict_lookup "deviceSerial" i); discriminate.
Qed.

Lemma get_plug_loop_not_found (records : list value) (target : value) :
  get_plug_loop records target = Raise not_found ->
  Forall (fun dev => exists s, device_serial dev = Ok s
                               /\ py_eq s target = false) records.
Proof.
  induction records as [|d records IH]; [constructor|].
  rewrite get_plug_loop_cons. intros H.
  destruct (device_serial d) as [s|e] eqn:Hs; cbn in H.
  - destruct (py_eq s target) eqn:Heq; [discriminate|].
    constructor; [exists s; split; [exact Hs | exact Heq] | exact (IH H)].
  - destruct (device_serial_never_not_found d). rewrite Hs, H. reflexivity.
Qed.

(** X9: The not-found error of [get_plug] means that the whole list was
    compared: every record the client returned has a device-info serial,
    and none of them equals the identifier. *)
Theorem get_plug_not_found_compared_all {C : Type} `{Api : EzvizClientApi C}
  (c : nat) (target : value) (w w' w'' : world C) (records : list value) :
  get_plugs c w = (Ok records, w') ->
  get_plug c target w = (Raise not_found, w'') ->
  Forall (fun dev => exists s, device_serial dev = Ok s
                               /\ py_eq s target = false) records.
Proof.
  intros Hplugs. unfold get_plug, mbind, SE_bind, lift. rewrite Hplugs.
  intros H. injection H as Hloop _. apply get_plug_loop_not_found.
  exact Hloop.
Qed.

Lemma get_plug_not_found_compared_all_witness :
  Forall (fun dev => exists s, device_serial dev = Ok s
                               /\ py_eq s (VStr "GHI789") = false)
         (map snd sample_devices).
Proof.
  apply (get_plug_not_found_compared_all
           (Api := scripted_client (VStr "token") sample_devices)
           0 (VStr "GHI789") (World [tt] []) (World [tt] [CallGetDeviceInfos 0])
           (World [tt] [CallGetDeviceInfos 0]) (map snd sample_devices));
    reflexivity.
Defined.

(** X10: A record without the device-info group stops the scan with
    [KeyError "deviceInfos"], and so hides every record after it, a
    matching one included. *)
Theorem get_plug_record_without_device_infos
  {C : Type} `{Api : EzvizClientApi C}
  (c : nat) (target : value) (w w' : world C)
  (before after : list value) (bad : pydict) :
  get_plugs c w = (Ok (before ++ VDict bad :: after), w') ->
  Forall (fun dev => exists s, device_serial dev = Ok s
                               /\ py_eq s target = false) before ->
  dict_lookup "deviceInfos" bad = None ->
  get_plug c target w = (Raise (KeyError "deviceInfos"), w').
Proof.
  intros Hplugs Hbefore Hbad. unfold get_plug, mbind, SE_bind, lift.
  rewrite Hplugs. f_equal. clear Hplugs.
  induction Hbefore as [|d before (s & Hs & Hne) _ IH].
  - cbn. rewrite Hbad. reflexivity.
  - rewrite <- app_comm_cons, get_plug_loop_cons, Hs. cbn. rewrite Hne.
    exact IH.
Qed.

Lemma get_plug_record_without_device_infos_witness :
  get_plug
    (Api := scripted_client (VStr "token")
              [("ABC123", sample_record "Plug A" "ABC123");
               ("CAM001", VDict [("resourceInfos", VDict [])]);
               ("DEF456", sample_record "Plug B" "DEF456")])
    0 (VStr "DEF456") (World [tt] [])
  = (Raise (KeyError "deviceInfos"), World [tt] [CallGetDeviceInfos 0]).
Proof.
  apply (get_plug_record_without_device_infos
           (Api := scripted_client (VStr "token")
                     [("ABC123", sample_record "Plug A" "ABC123");
                      ("CAM001", VDict [("resourceInfos", VDict [])]);
                      ("DEF456", sample_record "Plug B" "DEF456")])
           0 (VStr "DEF456") (World [tt] []) (World [tt] [CallGetDeviceInfos 0])
           [sample_record "Plug A" "ABC123"]
           [sample_record "Plug B" "DEF456"]
           [("resourceInfos", VDict [])]).
  - reflexivity.
  - repeat constructor. exists (VStr "ABC123"). split; reflexivity.
  - reflexivity.
Defined.

(** X11: Nothing is cached: each of [get_plug], [get_plug_data] and [update]
    asks the client for the device list exactly once, whatever comes of it,
    and makes no other call. *)
Theorem lookup_asks_client_once {C : Type} `{Api : EzvizClientApi C}
  (self : EZPlug) (w : world C) :
  trace (snd (get_plug (_client self) (_serial self) w))
  = trace w ++ [CallGetDeviceInfos (_client self)]
  /\ trace (snd (get_plug_data (_client self) (_serial self) w))
    = trace w ++ [CallGetDeviceInfos (_client self)]
  /\ trace (snd (snd (update (self, w))))
    = trace w ++ [CallGetDeviceInfos (_client self)].
Proof.
  pose proof (get_plugs_trace (_client self) w) as Htr.
  assert (Hplug : trace (snd (get_plug (_client self) (_serial self) w))
                  = trace w ++ [CallGetDeviceInfos (_client self)]).
  { unfold get_plug, mbind, SE_bind, lift.
    destruct (get_plugs (_client self) w) as [[records|e] w1]; exact Htr. }
  assert (Hdata : trace (snd (get_plug_data (_client self) (_serial self) w))
                  = trace w ++ [CallGetDeviceInfos (_client self)]).
  { unfold get_plug_data, mbind, SE_bind, lift.
    destruct (get_plug (_client self) (_serial self) w) as [[plug|e] w1];
      exact Hplug. }
  repeat split; try assumption.
  unfold update, in_world, get_self, set_self, client, serial, mbind, SE_bind.
  cbn.
  destruct (get_plug_data (_client self) (_serial self) w)
    as [[[[[n s] st] o]|e] w1]; exact Hdata.
Qed.

(** ** What the bootstrap does *)

(** [setup_platform] run step by step, on the answers of the client. *)
Lemma setup_platform_run {C : Type} `{Api : EzvizClientApi C}
  (config : pydict) (w : world C) :
  let u := dict_get config CONF_USERNAME in
  let p := dict_get config CONF_PASSWORD in
  let c := length (clients w) in
  let after st evs := World (clients w ++ [st]) (trace w ++ evs) in
  setup_platform config w
  = if negb (truthy u) || negb (truthy p)
    then (Ok tt,
          World (clients w)
            (trace w ++
             [Logged WARNING
                "Missing username/email and password in configuration"]))
    else
      match api_login (api_new u p) with
      | (Raise e, st1) => (Raise e, after st1 [NewClient u p; CallLogin c])
      | (Ok token, st1) =>
          if negb (truthy token)
          then (Ok tt,
                after st1
                  [NewClient u p; CallLogin c;
                   Logged ERROR "Unsuccessful connection to EZVIZ API"])
          else
            let stop st e :=
              (Raise e,
               after st [NewClient u p; CallLogin c; CallGetDeviceInfos c]) in
            match api_get_device_infos st1 with
            | (Raise e, st2) => stop st2 e
            | (Ok devs, st2) =>
                match get_plugs_loop devs (dict_keys devs) [] with
                | Raise e => stop st2 e
                | Ok plugs =>
                    match setup_loop plugs [] [] [] with
                    | Raise e => stop st2 e
                    | Ok (names, serials, states) =>
                        (Ok tt,
                         after st2
                           [NewClient u p; CallLogin c; CallGetDeviceInfos c;
                            Logged INFO "Retrieved all plugs in EZVIZ";
                            AddEntities
                              (map (fun '(name, serial, state) =>
                                      EZPlug_init name serial state c)
                                   (zip3 names serials states))])
                    end
                end
            end
      end.
Proof.
  cbn zeta. unfold setup_platform.
  destruct (negb (truthy (dict_get config CONF_USERNAME))
            || negb (truthy (dict_get config CONF_PASSWORD)));
    [reflexivity|].
  unfold mbind at 1. unfold SE_bind at 1. unfold EzvizClient.
  unfold mbind at 1. unfold SE_bind at 1. rewrite login_last.
  destruct (api_login _) as [[token|e] st1]; cbn [fst snd];
    [|rewrite <- !app_assoc; reflexivity].
  destruct (negb (truthy token));
    [unfold _LOGGER, emit; cbn; rewrite <- !app_assoc; reflexivity|].
  unfold mbind at 1. unfold SE_bind at 1.
  unfold get_plugs. unfold mbind at 1. unfold SE_bind at 1.
  rewrite get_device_infos_last.
  destruct (api_get_device_infos st1) as [[devs|e] st2]; cbn [fst snd];
    [|rewrite <- !app_assoc; reflexivity].
  unfold lift at 1.
  destruct (get_plugs_loop devs (dict_keys devs) []) as [plugs|e];
    [|rewrite <- !app_assoc; reflexivity].
  unfold mbind at 1. unfold SE_bind at 1. unfold lift.
  destruct (setup_loop plugs [] [] []) as [[[names serials] states]|e];
    [|rewrite <- !app_assoc; reflexivity].
  unfold mbind, SE_bind, _LOGGER, add_entities, emit. cbn.
  rewrite <- !app_assoc. reflexivity.
Qed.

Lemma setup_loop_all_parsed (records : list value) (ps : list parsed)
  (names serials states : list value) :
  Forall2 (fun r p => parse_plug_data r = Ok p) records ps ->
  setup_loop records names serials states
  = Ok (names ++ map (fun '(n, _, _, _) => n) ps,
        serials ++ map (fun '(_, s, _, _) => s) ps,
        states ++ map (fun '(_, _, st, _) => st) ps).
Proof.
  intros Hall. revert names serials states.
  induction Hall as [|r [[[n s] st] o] records ps Hr _ IH];
    intros names serials states; cbn.
  - rewrite !app_nil_r. reflexivity.
  - rewrite Hr. cbn. rewrite IH, <- !app_assoc. reflexivity.
Qed.

Lemma setup_loop_first_failure (good rest : list value) (ps : list parsed)
  (bad : value) (e : exn) (names serials states : list value) :
  Forall2 (fun r p => parse_plug_data r = Ok p) good ps ->
  parse_plug_data bad = Raise e ->
  setup_loop (good ++ bad :: rest) names serials states = Raise e.
Proof.
  intros Hgood Hbad. revert names serials states.
  induction Hgood as [|r [[[n s] st] o] good ps Hr _ IH];
    intros names serials states; cbn.
  - rewrite Hbad. reflexivity.
  - rewrite Hr. cbn. apply IH.
Qed.

Lemma zip3_of_parsed (c : nat) (ps : list parsed) :
  map (fun '(name, serial, state) => EZPlug_init name serial state c)
      (zip3 (map (fun '(n, _, _, _) => n) ps)
            (map (fun '(_, s, _, _) => s) ps)
            (map (fun '(_, _, st, _) => st) ps))
  = map (plug_of c) ps.
Proof.
  induction ps as [|[[[n s] st] o] ps IH]; [reflexivity|].
  cbn. rewrite IH. reflexivity.
Qed.

(** X12: For any number of records: when login succeeds and [parse_plug_data]
    returns on every record of the device list, [setup_platform] hands the
    host one plug per record, in the order of the list, each with the name,
    serial and state parsed from its record and all with the same client
    object.  With an empty device list the host is handed no plug. *)
Theorem setup_platform_registers_each_record
  {C : Type} `{Api : EzvizClientApi C}
  (config : pydict) (w : world C) (token : value) (st1 st2 : C)
  (devs : pydict) (ps : list parsed) :
  truthy (dict_get config CONF_USERNAME) = true ->
  truthy (dict_get config CONF_PASSWORD) = true ->
  api_login (api_new (dict_get config CONF_USERNAME)
                     (dict_get config CONF_PASSWORD)) = (Ok token, st1) ->
  truthy token = true ->
  api_get_device_infos st1 = (Ok devs, st2) ->
  List.NoDup (dict_keys devs) ->
  Forall2 (fun r p => parse_plug_data r = Ok p) (map snd devs) ps ->
  setup_platform config w
  = (Ok tt,
     World (clients w ++ [st2])
           (trace w ++
            [NewClient (dict_get config CONF_USERNAME)
                       (dict_get config CONF_PASSWORD);
             CallLogin (length (clients w));
             CallGetDeviceInfos (length (clients w));
             Logged INFO "Retrieved all plugs in EZVIZ";
             AddEntities (map (plug_of (length (clients w))) ps)])).
Proof.
  intros Hu Hp Hlogin Htoken Hinfos Hnodup Hparsed.
  rewrite setup_platform_run. cbn zeta. rewrite Hu, Hp, Hlogin, Htoken, Hinfos.
  cbn [negb orb].
  pose proof (get_plugs_loop_all [] devs [] Hnodup) as Hloop.
  change ([] ++ devs) with devs in Hloop. rewrite Hloop. cbn [app].
  rewrite (setup_loop_all_parsed _ ps [] [] [] Hparsed). cbn [app].
  rewrite zip3_of_parsed. reflexivity.
Qed.

Lemma setup_platform_registers_each_record_witness :
  setup_platform (Api := scripted_client (VStr "token") sample_devices)
    sample_config no_world
  = (Ok tt,
     World [tt]
       [NewClient (VStr "user@example.org") (VStr "secret");
        CallLogin 0%nat; CallGetDeviceInfos 0%nat;
        Logged INFO "Retrieved all plugs in EZVIZ";
        AddEntities
          (map (plug_of 0)
             [(VStr "Plug A", VStr "ABC123", VNone, VNone);
              (VStr "Plug B", VStr "DEF456", VNone, VNone)])]).
Proof.
  apply (setup_platform_registers_each_record
           (Api := scripted_client (VStr "token") sample_devices)
           sample_config no_world (VStr "token") tt tt sample_devices
           [(VStr "Plug A", VStr "ABC123", VNone, VNone);
            (VStr "Plug B", VStr "DEF456", VNone, VNone)]);
    try reflexivity.
  - repeat constructor; cbn; intros H; decompose [or] H;
      discriminate || contradiction.
  - repeat constructor.
Defined.

(** X13: One record on which [parse_plug_data] raises aborts the bootstrap: the
    exception of the first such record comes out of [setup_platform], and
    the host is handed nothing, not even the plugs of the records parsed
    before it. *)
Theorem setup_platform_bad_record_aborts {C : Type} `{Api : EzvizClientApi C}
  (config : pydict) (w : world C) (token : value) (st1 st2 : C)
  (devs : pydict) (good rest : list value) (ps : list parsed)
  (bad : value) (e : exn) :
  truthy (dict_get config CONF_USERNAME) = true ->
  truthy (dict_get config CONF_PASSWORD) = true ->
  api_login (api_new (dict_get config CONF_USERNAME)
                     (dict_get config CONF_PASSWORD)) = (Ok token, st1) ->
  truthy token = true ->
  api_get_device_infos st1 = (Ok devs, st2) ->
  List.NoDup (dict_keys devs) ->
  map snd devs = good ++ bad :: rest ->
  Forall2 (fun r p => parse_plug_data r = Ok p) good ps ->
  parse_plug_data bad = Raise e ->
  setup_platform config w
  = (Raise e,
     World (clients w ++ [st2])
           (trace w ++
            [NewClient (dict_get config CONF_USERNAME)
                       (dict_get config CONF_PASSWORD);
             CallLogin (length (clients w));
             CallGetDeviceInfos (length (clients w))])).
Proof.
  intros Hu Hp Hlogin Htoken Hinfos Hnodup Hsplit Hgood Hbad.
  rewrite setup_platform_run. cbn zeta. rewrite Hu, Hp, Hlogin, Htoken, Hinfos.
  cbn [negb orb].
  pose proof (get_plugs_loop_all [] devs [] Hnodup) as Hloop.
  change ([] ++ devs) with devs in Hloop. rewrite Hloop. cbn [app].
  rewrite Hsplit, (setup_loop_first_failure good rest ps bad e [] [] [] Hgood Hbad).
  reflexivity.
Qed.

Lemma setup_platform_bad_record_aborts_witness :
  setup_platform (Api := scripted_client (VStr "token") sample_devices_switch)
    sample_config no_world
  = (Raise (KeyError "SWTITCH"),
     World [tt]
       [NewClient (VStr "user@example.org") (VStr "secret");
        CallLogin 0%nat; CallGetDeviceInfos 0%nat]).
Proof.
  apply (setup_platform_bad_record_aborts
           (Api := scripted_client (VStr "token") sample_devices_switch)
           sample_config no_world (VStr "token") tt tt sample_devices_switch
           [sample_record "Plug A" "ABC123"] []
           [(VStr "Plug A", VStr "ABC123", VNone, VNone)]
           switch_record (KeyError "SWTITCH"));
    try reflexivity.
  - repeat constructor; cbn; intros H; decompose [or] H;
      discriminate || contradiction.
  - repeat constructor.
Defined.

(** X14: An exception raised by [login] comes out of [setup_platform] unchanged:
    the device list is not asked for and the host is handed nothing. *)
Theorem setup_platform_login_raises {C : Type} `{Api : EzvizClientApi C}
  (config : pydict) (w : world C) (e : exn) (st1 : C) :
  truthy (dict_get config CONF_USERNAME) = true ->
  truthy (dict_get config CONF_PASSWORD) = true ->
  api_login (api_new (dict_get config CONF_USERNAME)
                     (dict_get config CONF_PASSWORD)) = (Raise e, st1) ->
  setup_platform config w
  = (Raise e,
     World (clients w ++ [st1])
           (trace w ++
            [NewClient (dict_get config CONF_USERNAME)
                       (dict_get config CONF_PASSWORD);
             CallLogin (length (clients w))])).
Proof.
  intros Hu Hp Hlogin. rewrite setup_platform_run. cbn zeta.
  rewrite Hu, Hp, Hlogin. reflexivity.
Qed.

Lemma setup_platform_login_raises_witness :
  setup_platform (Api := login_failing_client (ClientError "bad password"))
    sample_config no_world
  = (Raise (ClientError "bad password"),
     World [tt]
       [NewClient (VStr "user@example.org") (VStr "secret"); CallLogin 0%nat]).
Proof.
  apply (setup_platform_login_raises
           (Api := login_failing_client (ClientError "bad password"))
           sample_config no_world (ClientError "bad password") tt);
    reflexivity.
Defined.

(** X15: An exception raised by [get_device_infos] during the bootstrap comes
    out of [setup_platform] unchanged, after the login, and the host is
    handed nothing. *)
Theorem setup_platform_enumeration_raises {C : Type} `{Api : EzvizClientApi C}
  (config : pydict) (w : world C) (token : value) (e : exn) (st1 st2 : C) :
  truthy (dict_get config CONF_USERNAME) = true ->
  truthy (dict_get config CONF_PASSWORD) = true ->
  api_login (api_new (dict_get config CONF_USERNAME)
                     (dict_get config CONF_PASSWORD)) = (Ok token, st1) ->
  truthy token = true ->
  api_get_device_infos st1 = (Raise e, st2) ->
  setup_platform config w
  = (Raise e,
     World (clients w ++ [st2])
           (trace w ++
            [NewClient (dict_get config CONF_USERNAME)
                       (dict_get config CONF_PASSWORD);
             CallLogin (length (clients w));
             CallGetDeviceInfos (length (clients w))])).
Proof.
  intros Hu Hp Hlogin Htoken Hinfos. rewrite setup_platform_run. cbn zeta.
  rewrite Hu, Hp, Hlogin, Htoken, Hinfos. reflexivity.
Qed.

Lemma setup_platform_enumeration_raises_witness :
  setup_platform (Api := enumeration_failing_client (ClientError "timeout"))
    sample_config no_world
  = (Raise (ClientError "timeout"),
     World [tt]
       [NewClient (VStr "user@example.org") (VStr "secret");
        CallLogin 0%nat; CallGetDeviceInfos 0%nat]).
Proof.
  apply (setup_platform_enumeration_raises
           (Api := enumeration_failing_client (ClientError "timeout"))
           sample_config no_world (VStr "token") (ClientError "timeout") tt tt);
    reflexivity.
Defined.

(** X16: Whatever the configuration and whatever the client answers, one run of
    [setup_platform] adds to the trace one of five sequences: it creates at
    most one client object, calls [login] at most once and before anything
    else, asks for the device list at most once and after the login, calls
    [add_entities] at most once and last, and never calls
    [switch_status]. *)
Theorem setup_platform_protocol {C : Type} `{Api : EzvizClientApi C}
  (config : pydict) (w : world C) :
  exists evs,
    trace (snd (setup_platform config w)) = trace w ++ evs
    /\ bootstrap_events (dict_get config CONF_USERNAME)
         (dict_get config CONF_PASSWORD) (length (clients w)) evs
    /\ existsb is_switch_call evs = false.
Proof.
  rewrite setup_platform_run. cbn zeta.
  destruct (negb (truthy (dict_get config CONF_USERNAME))
            || negb (truthy (dict_get config CONF_PASSWORD))).
  { eexists. split; [reflexivity|]. split; [constructor | reflexivity]. }
  destruct (api_login _) as [[token|e] st1].
  2: { eexists. split; [reflexivity|]. split; [constructor | reflexivity]. }
  destruct (negb (truthy token)).
  { eexists. split; [reflexivity|]. split; [constructor | reflexivity]. }
  destruct (api_get_device_infos st1) as [[devs|e] st2].
  2: { eexists. split; [reflexivity|]. split; [constructor | reflexivity]. }
  destruct (get_plugs_loop devs (dict_keys devs) []) as [plugs|e].
  2: { eexists. split; [reflexivity|]. split; [constructor | reflexivity]. }
  destruct (setup_loop plugs [] [] []) as [[[names serials] states]|e].
  2: { eexists. split; [reflexivity|]. split; [constructor | reflexivity]. }
  eexists. split; [reflexivity|]. split; [constructor | reflexivity].
Qed.

(** ** What the plug does *)

(** X17: The switching method that applies to the cached state ([turn_off] on a
    plug that reads on, [turn_on] on one that reads off) sends the opposite
    of the cached state to the plug's client object, and its outcome is the
    client's: it returns when [switch_status] returns and raises what
    [switch_status] raises.  The cached state is the same afterwards. *)
Theorem switching_outcome_is_the_clients {C : Type} `{Api : EzvizClientApi C}
  (self : EZPlug) (w : world C) (st st' : C) (r : result value) :
  clients w !! _client self = Some st ->
  api_switch_status (_serial self) 14 (if is_on self then 0 else 1) st
  = (r, st') ->
  (if is_on self then turn_off else turn_on) (self, w)
  = (match r with Ok _ => Ok tt | Raise e => Raise e end,
     (self,
      World (<[_client self := st']> (clients w))
            (trace w ++
             [CallSwitchStatus (_client self) (_serial self) 14
                (if is_on self then 0 else 1)]))).
Proof.
  intros Hc Hswitch.
  destruct (is_on self) eqn:Hon.
  - unfold turn_off, mbind, SE_bind, get_self. cbn. rewrite Hon.
    unfold in_world, set_plug_state, switch_status, emit, mbind, SE_bind.
    cbn. rewrite (on_client_at _ _ _ st) by exact Hc. cbn. rewrite Hswitch.
    destruct r; reflexivity.
  - unfold turn_on, mbind, SE_bind, get_self. cbn. rewrite Hon.
    unfold in_world, set_plug_state, switch_status, emit, mbind, SE_bind.
    cbn. rewrite (on_client_at _ _ _ st) by exact Hc. cbn. rewrite Hswitch.
    destruct r; reflexivity.
Qed.

Lemma switching_outcome_is_the_clients_witness :
  turn_off (Api := scripted_client (VStr "token") sample_devices)
    (EZPlug_init (VStr "Plug A") (VStr "ABC123") (VBool true) 0, World [tt] [])
  = (Ok tt,
     (EZPlug_init (VStr "Plug A") (VStr "ABC123") (VBool true) 0,
      World [tt] [CallSwitchStatus 0 (VStr "ABC123") 14 0])).
Proof.
  apply (switching_outcome_is_the_clients
           (Api := scripted_client (VStr "token") sample_devices)
           (EZPlug_init (VStr "Plug A") (VStr "ABC123") (VBool true) 0)
           (World [tt] []) tt tt (Ok VNone)); reflexivity.
Defined.

Lemma turn_on_when_off_trace {C : Type} `{Api : EzvizClientApi C}
  (self : EZPlug) (w : world C) :
  is_on self = false ->
  fst (snd (turn_on (self, w))) = self
  /\ trace (snd (snd (turn_on (self, w))))
    = trace w ++ [CallSwitchStatus (_client self) (_serial self) 14 1].
Proof.
  intros Hon. unfold turn_on, mbind, SE_bind, get_self. cbn. rewrite Hon.
  unfold in_world. cbn.
  pose proof (set_plug_state_trace (_client self) (_serial self) 1 w) as Htr.
  destruct (set_plug_state (_client self) (_serial self) 1 w) as [[v|e] w'];
    split; first [reflexivity | exact Htr].
Qed.

(** X18: Commands are not remembered: on a plug whose cached state reads off,
    [turn_on] called a second time, before any refresh, sends the command a
    second time. *)
Theorem turn_on_repeated_sends_again {C : Type} `{Api : EzvizClientApi C}
  (self : EZPlug) (w : world C) :
  is_on self = false ->
  trace (snd (snd (turn_on (snd (turn_on (self, w))))))
  = trace w
    ++ [CallSwitchStatus (_client self) (_serial self) 14 1;
        CallSwitchStatus (_client self) (_serial self) 14 1].
Proof.
  intros Hon.
  destruct (turn_on_when_off_trace self w Hon) as [Hself Htr].
  destruct (turn_on (self, w)) as [r [self1 w1]]. cbn in *. subst self1.
  destruct (turn_on_when_off_trace self w1 Hon) as [_ Htr1].
  rewrite Htr1, Htr, <- app_assoc. reflexivity.
Qed.

Lemma turn_on_repeated_sends_again_witness :
  trace (snd (snd (turn_on (Api := scripted_client (VStr "token") [])
    (snd (turn_on (Api := scripted_client (VStr "token") [])
            (EZPlug_init (VStr "Plug A") (VStr "ABC123") VNone 0,
             World [tt] []))))))
  = [CallSwitchStatus 0 (VStr "ABC123") 14 1;
     CallSwitchStatus 0 (VStr "ABC123") 14 1].
Proof.
  apply (turn_on_repeated_sends_again
           (Api := scripted_client (VStr "token") [])
           (EZPlug_init (VStr "Plug A") (VStr "ABC123") VNone 0)
           (World [tt] [])).
  reflexivity.
Defined.

(** X19: Bootstrap and refresh agree: a plug built from the fields parsed from a
    record, refreshed while the device list still has that record as the
    first one with the plug's serial in its device-info group, is the same
    plug afterwards. *)
Theorem update_of_unchanged_record {C : Type} `{Api : EzvizClientApi C}
  (c : nat) (w w' : world C) (before after : list value) (record : value)
  (s : string) (n st o : value) :
  get_plugs c w = (Ok (before ++ record :: after), w') ->
  Forall (fun d => exists s', device_serial d = Ok s'
                              /\ py_eq s' (VStr s) = false) before ->
  device_serial record = Ok (VStr s) ->
  parse_plug_data record = Ok (n, VStr s, st, o) ->
  update (plug_of c (n, VStr s, st, o), w)
  = (Ok tt, (plug_of c (n, VStr s, st, o), w')).
Proof.
  intros Hplugs Hbefore Hserial Hparse.
  unfold update, get_plug_data, get_plug, in_world, get_self, set_self,
    client, serial, lift, mbind, SE_bind. cbn.
  rewrite Hplugs.
  rewrite (get_plug_loop_first_match before after record (VStr s) Hbefore).
  - rewrite Hparse. reflexivity.
  - unfold serial_is. rewrite Hserial. cbn. apply String.eqb_refl.
Qed.

Lemma update_of_unchanged_record_witness :
  update (Api := scripted_client (VStr "token") sample_devices)
    (plug_of 0 (VStr "Plug B", VStr "DEF456", VNone, VNone), World [tt] [])
  = (Ok tt,
     (plug_of 0 (VStr "Plug B", VStr "DEF456", VNone, VNone),
      World [tt] [CallGetDeviceInfos 0])).
Proof.
  apply (update_of_unchanged_record
           (Api := scripted_client (VStr "token") sample_devices)
           0 (World [tt] []) (World [tt] [CallGetDeviceInfos 0])
           [sample_record "Plug A" "ABC123"] []
           (sample_record "Plug B" "DEF456") "DEF456"
           (VStr "Plug B") VNone VNone).
  - reflexivity.
  - repeat constructor. exists (VStr "ABC123"). split; reflexivity.
  - reflexivity.
  - reflexivity.
Defined.
